(** * Citadel detection engine: signal aggregator, category normaliser,
      benign-pattern discount and gzip decoder bound.

    Shallow embedding of parts of the Go package [ml]:
    - the signal aggregator ([SignalAggregator] and its methods, with the
      tiered precedence engine [Aggregate]);
    - the TIS category normaliser ([NormalizeCategory] and its tables);
    - the scorer configuration ([GetBenignPatterns],
      [ApplyBenignPatternDiscount]);
    together with the properties the specification states about them.

    Numbers.  Go's [float64] is modelled by the exact rationals [Q]:
    comparisons, sums, products and quotients are the mathematical ones.
    Rounding, NaN and the infinities are outside this model.  The one
    function whose specification turns on rounding, the fusion loop
    [calculateWeightedScore], is given a second time over IEEE 754
    binary64 (primitive floats) as [calculateWeightedScore_binary64].

    Strings.  A Go string is a sequence of bytes, here a [string] of
    [ascii] characters; string-typed enumerations ([SignalSource],
    [TISCategory], ...) stay strings. *)

From Stdlib Require Import PrimFloat.
From Stdlib Require FloatOps SpecFloat.
From Stdlib Require Import QArith Qround Qabs Lqa ZArith Lia.
From Stdlib Require Import String Ascii List Bool DecimalString.
From stdpp Require Import base option gmap strings.
Import ListNotations.

Local Open Scope string_scope.

(* ===================================================================== *)
(** ** float64 as exact rationals                                         *)
(* ===================================================================== *)

Abbreviation float64 := Q (only parsing).

(** [x >= y], [x > y], [x < y], [x == y] on float64, as booleans. *)
Definition Qgeb (x y : Q) : bool := Qle_bool y x.
Definition Qgtb (x y : Q) : bool := negb (Qle_bool x y).
Definition Qltb (x y : Q) : bool := negb (Qle_bool y x).
Definition Qeqb (x y : Q) : bool := Qeq_bool x y.

(* ===================================================================== *)
(** ** The parts of Go's [fmt] and [strings] packages the aggregator uses *)
(* ===================================================================== *)

(** [strings.Join]. *)
Definition strings_Join (elems : list string) (sep : string) : string :=
  String.concat sep elems.

(** Nearest integer, ties to even: the rounding of [%.Nf]. *)
Definition roundHalfEven (q : Q) : Z :=
  let f := Qfloor q in
  match Qcompare (q - inject_Z f) (1 # 2) with
  | Lt => f
  | Gt => (f + 1)%Z
  | Eq => if Z.even f then f else (f + 1)%Z
  end.

Definition decimalOfZ (n : Z) : string :=
  NilZero.string_of_uint (N.to_uint (Z.to_N n)).

Fixpoint padZeros (width : nat) (s : string) : string :=
  match width with
  | O => s
  | S w => if (String.length s <? S w)%nat then padZeros w ("0" ++ s) else s
  end.

(** [fmt.Sprintf("%.<prec>f", q)]. *)
Definition fmtFloat (prec : nat) (q : Q) : string :=
  let scale := (10 ^ Z.of_nat prec)%Z in
  let n := roundHalfEven (Qabs q * inject_Z scale) in
  let sign := if Qltb q 0 then "-" else "" in
  let intPart := decimalOfZ (n / scale) in
  match prec with
  | O => sign ++ intPart
  | S _ => sign ++ intPart ++ "." ++ padZeros prec (decimalOfZ (n mod scale))
  end.

(** [fmt.Sprintf("%v", xs)] for a slice of string-typed values. *)
Definition fmtSlice (xs : list string) : string :=
  "[" ++ String.concat " " xs ++ "]".

(* ===================================================================== *)
(** ** Detection signals                                                  *)
(* ===================================================================== *)

Local Open Scope Q_scope.

Definition SignalSource : Type := string.
Definition ObfuscationType : Type := string.
Definition EscalationType : Type := string.

Definition SignalSourceHeuristic : SignalSource := "heuristic".
Definition SignalSourceBERT : SignalSource := "bert".
Definition SignalSourceSemantic : SignalSource := "semantic".
Definition SignalSourceLLM : SignalSource := "llm".
Definition SignalSourceSafeguard : SignalSource := "safeguard".
Definition SignalSourceDeeperGo : SignalSource := "deeper_go".

Definition EscalationNone : EscalationType := "".
Definition EscalationBERT : EscalationType := "bert".
Definition EscalationDeeperGo : EscalationType := "deeper_go".
Definition EscalationSafeguard : EscalationType := "safeguard".

(** A value stored in a [map[string]interface{}]: the dynamic type is part
    of the value, so that the type assertion [.(bool)] can fail. *)
Inductive MetaValue : Type :=
  | MetaBool (b : bool)
  | MetaString (s : string)
  | MetaNumber (q : float64)
  | MetaNil.

(** Modelled from the spec: the struct [DetectionSignal] (its declaring
    file is not part of the sources).  Fields follow section 3 of the
    specification and the selectors [Aggregate] applies to a signal. *)
Record DetectionSignal : Type := mkSignal {
  Source : SignalSource;
  Score : float64;
  Confidence : float64;
  Label : string;
  Weight : float64;
  Reasons : list string;
  ObfuscationTypes : list ObfuscationType;
  LatencyMs : float64;
  Metadata : gmap string MetaValue
}.

(** Modelled from the spec: [DetectionSignal.IsHighConfidence], "signals
    with [confidence >= 0.85]". *)
Definition IsHighConfidence (s : DetectionSignal) : bool :=
  Qgeb (Confidence s) 0.85.

(** Modelled from the spec: [DetectionSignal.IsLowConfidence], confidence
    below [low_confidence = 0.70]. *)
Definition IsLowConfidence (s : DetectionSignal) : bool :=
  Qltb (Confidence s) 0.70.

(** Modelled from the spec: [DetectionSignal.IsSafe], label [SAFE]. *)
Definition IsSafe (s : DetectionSignal) : bool :=
  String.eqb (Label s) "SAFE".

(** Modelled from the spec: [DetectionSignal.IsMalicious], label
    [INJECTION]. *)
Definition IsMalicious (s : DetectionSignal) : bool :=
  String.eqb (Label s) "INJECTION".

(** Modelled from the spec: [DetectionSignal.HasObfuscation], the signal
    carries at least one obfuscation marker. *)
Definition SignalHasObfuscation (s : DetectionSignal) : bool :=
  negb (Nat.eqb (List.length (ObfuscationTypes s)) 0%nat).

(* ===================================================================== *)
(** ** Aggregator state and result                                        *)
(* ===================================================================== *)

Record AggregationThresholds : Type := mkThresholds {
  FastPathBlock : float64;
  FastPathAllow : float64;
  BERTEscalation : float64;
  SafeguardEscalation : float64;
  ObfuscationBoost : float64;
  HighConfidenceThreshold : float64;
  LowConfidenceThreshold : float64
}.

Definition DefaultAggregationThresholds : AggregationThresholds :=
  {| FastPathBlock := 0.85;
     FastPathAllow := 0.05;
     BERTEscalation := 0.30;
     SafeguardEscalation := 0.40;
     ObfuscationBoost := 1.3;
     HighConfidenceThreshold := 0.85;
     LowConfidenceThreshold := 0.70 |}.

(** [AggregatedResult]; the field [ObfuscationTypes] of the Go struct is
    [AllObfuscationTypes] here, the name being taken by the signal's. *)
Record AggregatedResult : Type := mkResult {
  FinalScore : float64;
  Action : string;
  RiskLevel : string;
  Reason : string;
  DecisionPath : string;
  Signals : list DetectionSignal;
  WasDeobfuscated : bool;
  AllObfuscationTypes : list ObfuscationType;
  EscalationNeeded : EscalationType;
  TotalLatencyMs : float64
}.

Record SignalAggregator : Type := mkAggregator {
  thresholds : AggregationThresholds;
  signals : list DetectionSignal
}.

Definition NewSignalAggregator : SignalAggregator :=
  {| thresholds := DefaultAggregationThresholds; signals := [] |}.

Definition NewSignalAggregatorWithThresholds (t : AggregationThresholds)
  : SignalAggregator :=
  {| thresholds := t; signals := [] |}.

Definition AddSignal (a : SignalAggregator) (s : DetectionSignal)
  : SignalAggregator :=
  {| thresholds := thresholds a; signals := signals a ++ [s] |}.

(** First signal of the given source, [None] for Go's [nil]. *)
Definition GetSignal (a : SignalAggregator) (source : SignalSource)
  : option DetectionSignal :=
  List.find (fun s => String.eqb (Source s) source) (signals a).

Definition HasSignal (a : SignalAggregator) (source : SignalSource) : bool :=
  match GetSignal a source with Some _ => true | None => false end.

Definition HasObfuscation (a : SignalAggregator) : bool :=
  existsb SignalHasObfuscation (signals a).

(** One step of the inner loop of [GetAllObfuscationTypes]: the state is
    the [seen] set and the slice built so far. *)
Definition noteObfuscationType
  (st : gset string * list ObfuscationType) (t : ObfuscationType)
  : gset string * list ObfuscationType :=
  if bool_decide (t ∈ st.1) then st else ({[ t ]} ∪ st.1, (st.2 ++ [t])%list).

Definition GetAllObfuscationTypes (a : SignalAggregator)
  : list ObfuscationType :=
  snd (fold_left
         (fun st s => fold_left noteObfuscationType (ObfuscationTypes s) st)
         (signals a) (∅, [])).

(* ===================================================================== *)
(** ** Scores, actions and risk levels                                    *)
(* ===================================================================== *)

Definition Qleb (x y : Q) : bool := Qle_bool x y.

(** [abs]: absolute value. *)
Definition abs (x : float64) : float64 :=
  if Qltb x 0 then - x else x.

(** One iteration of the loop of [calculateWeightedScore]; the state is
    [(weightedSum, totalWeight)]. *)
Definition accumulateWeighted (st : float64 * float64) (s : DetectionSignal)
  : float64 * float64 :=
  let effectiveWeight := Weight s * Confidence s in
  (fst st + Score s * effectiveWeight, snd st + effectiveWeight).

(** [calculateWeightedScore]: confidence-weighted average of all signals. *)
Definition calculateWeightedScore (a : SignalAggregator) : float64 :=
  match signals a with
  | [] => 0
  | _ :: _ =>
      let st := fold_left accumulateWeighted (signals a) (0, 0) in
      if Qeqb (snd st) 0 then 0 else fst st / snd st
  end.

(** *** The fusion loop over IEEE 754 binary64

    The same function with Go's [float64] as it is at run time: a binary64
    number, every product, sum and quotient rounded to nearest (ties to
    even), each operation on its own as the amd64 compiler emits them (no
    fused multiply-add).  [float] is the primitive binary64 type. *)

(** The three [float64] fields of a [DetectionSignal] that
    [calculateWeightedScore] reads. *)
Record SignalBinary64 : Type := mkSignalBinary64 {
  Score_binary64 : float;
  Weight_binary64 : float;
  Confidence_binary64 : float
}.

(** One iteration of the loop; the state is [(weightedSum, totalWeight)]. *)
Definition accumulateWeighted_binary64 (st : float * float)
  (s : SignalBinary64) : float * float :=
  let effectiveWeight := (Weight_binary64 s * Confidence_binary64 s)%float in
  ((fst st + Score_binary64 s * effectiveWeight)%float,
   (snd st + effectiveWeight)%float).

(** [calculateWeightedScore] on the signal list of the aggregator;
    [totalWeight == 0] is the IEEE comparison (true of both zeros, false
    of NaN). *)
Definition calculateWeightedScore_binary64 (sigs : list SignalBinary64)
  : float :=
  match sigs with
  | [] => 0%float
  | _ :: _ =>
      let st := fold_left accumulateWeighted_binary64 sigs
                  (0%float, 0%float) in
      if (snd st =? 0)%float then 0%float else (fst st / snd st)%float
  end.

Definition scoreToAction (score : float64) : string :=
  if Qgeb score 0.70 then "BLOCK"
  else if Qgeb score 0.40 then "WARN"
  else "ALLOW".

Definition scoreToRiskLevel (score : float64) : string :=
  if Qgeb score 0.90 then "CRITICAL"
  else if Qgeb score 0.70 then "HIGH"
  else if Qgeb score 0.50 then "MEDIUM"
  else if Qgeb score 0.30 then "LOW"
  else "MINIMAL".

(** One element of the slice joined by [buildAggregationReason]. *)
Definition aggregationReasonPart (s : DetectionSignal) : string :=
  let part := Source s ++ "=" ++ fmtFloat 2 (Score s) in
  let part := if String.eqb (Label s) "" then part
              else part ++ "(" ++ Label s ++ ")" in
  if IsHighConfidence s then part ++ "[HC]"
  else if IsLowConfidence s then part ++ "[LC]"
  else part.

Definition buildAggregationReason (a : SignalAggregator) : string :=
  match signals a with
  | [] => "No signals"
  | _ :: _ => strings_Join (map aggregationReasonPart (signals a)) ", "
  end.

(* ===================================================================== *)
(** ** Escalation predicates                                              *)
(* ===================================================================== *)

Definition ShouldEscalateToBERT (a : SignalAggregator) : bool :=
  if HasObfuscation a then true
  else
    let score := calculateWeightedScore a in
    Qgeb score (BERTEscalation (thresholds a))
    && Qltb score (FastPathBlock (thresholds a)).

Definition ShouldEscalateToSafeguard (a : SignalAggregator) : bool :=
  let disagreement :=
    match GetSignal a SignalSourceBERT, GetSignal a SignalSourceHeuristic with
    | Some bertSignal, Some heuristicSignal =>
        let scoreDiff := abs (Score bertSignal - Score heuristicSignal) in
        Qgtb scoreDiff 0.3
        || (IsLowConfidence bertSignal && HasObfuscation a && IsSafe bertSignal)
    | _, _ => false
    end in
  if disagreement then true
  else
    let score := calculateWeightedScore a in
    if Qgeb score (SafeguardEscalation (thresholds a)) && Qleb score 0.70
    then negb (existsb IsHighConfidence (signals a))
    else false.

Definition ShouldTriggerDeeperGoAnalysis (a : SignalAggregator) : bool :=
  match GetSignal a SignalSourceBERT with
  | None => false
  | Some bertSignal =>
      if Qltb (Confidence bertSignal) (LowConfidenceThreshold (thresholds a))
      then
        if HasObfuscation a && IsSafe bertSignal then true
        else
          match GetSignal a SignalSourceHeuristic with
          | Some heuristicSignal =>
              (IsMalicious bertSignal && Qltb (Score heuristicSignal) 0.3)
              || (IsSafe bertSignal && Qgtb (Score heuristicSignal) 0.4)
          | None => false
          end
      else false
  end.

(* ===================================================================== *)
(** ** [sort.Slice] on short slices                                       *)
(* ===================================================================== *)

(** Inner loop of Go's [insertionSort_func]: the element [x] at index
    [j] is swapped leftwards while [less(data[j], data[j-1])].  The sorted
    prefix is kept reversed, so its head is [data[j-1]]. *)
Fixpoint insertLess {A : Type} (less : A -> A -> bool) (x : A)
  (revPrefix : list A) : list A :=
  match revPrefix with
  | [] => [x]
  | y :: rest =>
      if less x y then y :: insertLess less x rest else x :: y :: rest
  end.

Definition insertionSort_func {A : Type} (less : A -> A -> bool)
  (data : list A) : list A :=
  List.rev (fold_left (fun revPrefix x => insertLess less x revPrefix) data []).

(** [sort.Slice(data, less)].  The Go library (Go 1.23, the version the
    repository requires) sorts a slice of at most 12 elements by
    [insertionSort_func]; an aggregator holds one signal per detector, so
    this is the branch [Aggregate] exercises.  Longer slices take the
    library's pattern-defeating quicksort, whose order among equal keys is
    not modelled. *)
Definition sort_Slice {A : Type} (data : list A) (less : A -> A -> bool)
  : list A :=
  insertionSort_func less data.

(* ===================================================================== *)
(** ** [Aggregate]: the tiered precedence engine                          *)
(* ===================================================================== *)

(** The type assertion [s.Metadata["secrets_found"].(bool)] followed by
    [ok && found]. *)
Definition secretsFound (s : DetectionSignal) : bool :=
  match Metadata s !! "secrets_found" with
  | Some (MetaBool found) => found
  | _ => false
  end.

(** The [result] value [Aggregate] starts from (signals, obfuscation
    summary, total latency), completed with the fields a tier assigns
    before it returns. *)
Definition resultWith (a : SignalAggregator)
  (score : float64) (action risk reason path : string)
  (escalation : EscalationType) : AggregatedResult :=
  {| FinalScore := score;
     Action := action;
     RiskLevel := risk;
     Reason := reason;
     DecisionPath := path;
     Signals := signals a;
     WasDeobfuscated := HasObfuscation a;
     AllObfuscationTypes := GetAllObfuscationTypes a;
     EscalationNeeded := escalation;
     TotalLatencyMs := fold_left (fun acc s => acc + LatencyMs s) (signals a) 0 |}.

(** [boostedScore > 1.0] is cut to [1.0]. *)
Definition clampToOne (score : float64) : float64 :=
  if Qgtb score 1 then 1 else score.

(** TIER 0: absolute rules.  [Some r] is an early [return r]. *)
Definition aggregateTier0 (a : SignalAggregator) : option AggregatedResult :=
  match List.find secretsFound (signals a) with
  | Some _ =>
      Some (resultWith a 1 "BLOCK" "CRITICAL" "Secrets/credentials detected"
              "TIER_0_SECRETS" EscalationNone)
  | None =>
      match List.find (fun s => Qgeb (Score s) 0.95 && IsHighConfidence s)
                      (signals a) with
      | Some s =>
          Some (resultWith a (Score s) "BLOCK" "CRITICAL"
                  (Source s ++ ": " ++ strings_Join (Reasons s) "; ")
                  ("TIER_0_HIGH_SCORE_" ++ Source s) EscalationNone)
      | None => None
      end
  end.

(** The comparison passed to [sort.Slice]: confidence, descending. *)
Definition byConfidenceDesc (x y : DetectionSignal) : bool :=
  Qgtb (Confidence x) (Confidence y).

(** TIER 1: high-confidence layer wins.  The sorted slice is empty exactly
    when no signal is high-confidence ([len(highConfSignals) > 0] fails). *)
Definition aggregateTier1 (a : SignalAggregator) : option AggregatedResult :=
  let highConfSignals := List.filter IsHighConfidence (signals a) in
  match sort_Slice highConfSignals byConfidenceDesc with
  | [] => None
  | (topSignal :: _) as sorted =>
      let firstLabel := Label topSignal in
      let allAgree := forallb (fun s => String.eqb (Label s) firstLabel) sorted in
      if allAgree then
        Some (resultWith a (Score topSignal)
                (scoreToAction (Score topSignal))
                (scoreToRiskLevel (Score topSignal))
                ("High-confidence " ++ Source topSignal ++ ": "
                   ++ Label topSignal ++ " ("
                   ++ fmtFloat 0 (Confidence topSignal * 100) ++ "%)")
                "TIER_1_HIGH_CONFIDENCE_AGREEMENT" EscalationNone)
      else None
  end.

(** TIER 2, case 1: BERT says SAFE below the high-confidence threshold. *)
Definition obfuscationVeto (a : SignalAggregator)
  (heuristicSignal bertSignal : DetectionSignal) : option AggregatedResult :=
  if IsSafe bertSignal
     && Qltb (Confidence bertSignal) (HighConfidenceThreshold (thresholds a))
  then
    let boostedScore :=
      clampToOne (Score heuristicSignal * ObfuscationBoost (thresholds a)) in
    if Qgeb boostedScore 0.5 then
      Some (resultWith a boostedScore
              (scoreToAction boostedScore) (scoreToRiskLevel boostedScore)
              ("Obfuscation veto: BERT said SAFE ("
                 ++ fmtFloat 0 (Confidence bertSignal * 100)
                 ++ "% conf) but " ++ fmtSlice (GetAllObfuscationTypes a)
                 ++ " detected")
              "TIER_2_OBFUSCATION_VETO" EscalationDeeperGo)
    else None
  else None.

(** TIER 2, case 2: Go and BERT agree on injection. *)
Definition obfuscationBoost (a : SignalAggregator)
  (heuristicSignal bertSignal : DetectionSignal) : option AggregatedResult :=
  if IsMalicious bertSignal && Qgeb (Score heuristicSignal) 0.4 then
    let boostedScore :=
      clampToOne ((Score bertSignal + Score heuristicSignal) / 2
                  * ObfuscationBoost (thresholds a)) in
    Some (resultWith a boostedScore
            (scoreToAction boostedScore) (scoreToRiskLevel boostedScore)
            ("Obfuscation + agreement: Go=" ++ fmtFloat 2 (Score heuristicSignal)
               ++ ", BERT=" ++ Label bertSignal ++ " ("
               ++ fmtFloat 0 (Confidence bertSignal * 100) ++ "%)")
            "TIER_2_OBFUSCATION_BOOST" EscalationNone)
  else None.

(** TIER 2: obfuscation gives Go veto power. *)
Definition aggregateTier2 (a : SignalAggregator) : option AggregatedResult :=
  if HasObfuscation a then
    match GetSignal a SignalSourceHeuristic, GetSignal a SignalSourceBERT with
    | Some heuristicSignal, Some bertSignal =>
        match obfuscationVeto a heuristicSignal bertSignal with
        | Some r => Some r
        | None => obfuscationBoost a heuristicSignal bertSignal
        end
    | _, _ => None
    end
  else None.

(** TIER 3: confidence-weighted aggregation. *)
Definition aggregateTier3 (a : SignalAggregator) : AggregatedResult :=
  let score := calculateWeightedScore a in
  let score :=
    if HasObfuscation a && Qgeb score 0.3 && Qltb score 0.7
    then clampToOne (score * ObfuscationBoost (thresholds a))
    else score in
  let escalation :=
    if ShouldEscalateToSafeguard a && negb (HasSignal a SignalSourceSafeguard)
    then EscalationSafeguard
    else if ShouldTriggerDeeperGoAnalysis a
            && negb (HasSignal a SignalSourceDeeperGo)
    then EscalationDeeperGo
    else EscalationNone in
  resultWith a score (scoreToAction score) (scoreToRiskLevel score)
    (buildAggregationReason a) "TIER_3_WEIGHTED_AGGREGATION" escalation.

Definition Aggregate (a : SignalAggregator) : AggregatedResult :=
  match aggregateTier0 a with
  | Some r => r
  | None =>
      match aggregateTier1 a with
      | Some r => r
      | None =>
          match aggregateTier2 a with
          | Some r => r
          | None => aggregateTier3 a
          end
      end
  end.

(* ===================================================================== *)
(** ** TIS unified category normaliser                                    *)
(* ===================================================================== *)

(** [type TISCategory string]. *)
Definition TISCategory : Type := string.

Definition TISCategoryInstructionOverride : TISCategory := "instruction_override".
Definition TISCategoryJailbreak : TISCategory := "jailbreak".
Definition TISCategoryRoleplay : TISCategory := "roleplay".
Definition TISCategoryDataExfil : TISCategory := "data_exfil".
Definition TISCategoryDataDump : TISCategory := "data_dump".
Definition TISCategoryCommandInjection : TISCategory := "command_injection".
Definition TISCategoryFileAccess : TISCategory := "file_access".
Definition TISCategoryContextManipulation : TISCategory := "context_manipulation".
Definition TISCategoryTokenExhaustion : TISCategory := "token_exhaustion".
Definition TISCategoryGoalHijacking : TISCategory := "goal_hijacking".
Definition TISCategoryAutonomyAbuse : TISCategory := "autonomy_abuse".
Definition TISCategoryHallucinationInjection : TISCategory := "hallucination_injection".
Definition TISCategoryMCPInjection : TISCategory := "mcp_injection".
Definition TISCategoryPaymentFraud : TISCategory := "payment_fraud".
Definition TISCategoryImpersonation : TISCategory := "impersonation".
Definition TISCategoryPsychological : TISCategory := "psychological".
Definition TISCategorySocialEngineering : TISCategory := "social_engineering".
Definition TISCategoryObfuscation : TISCategory := "obfuscation".
Definition TISCategoryMultiTurn : TISCategory := "multi_turn".
Definition TISCategoryIndirectInjection : TISCategory := "indirect_injection".
Definition TISCategoryUnknown : TISCategory := "unknown".

(** [TISCategory.String]. *)
Definition TISCategory_String (c : TISCategory) : string := c.

Definition AllTISCategories : list TISCategory :=
  [ TISCategoryInstructionOverride; TISCategoryJailbreak; TISCategoryRoleplay;
    TISCategoryDataExfil; TISCategoryDataDump; TISCategoryCommandInjection;
    TISCategoryFileAccess; TISCategoryContextManipulation;
    TISCategoryTokenExhaustion; TISCategoryGoalHijacking;
    TISCategoryAutonomyAbuse; TISCategoryHallucinationInjection;
    TISCategoryMCPInjection; TISCategoryPaymentFraud;
    TISCategoryImpersonation; TISCategoryPsychological;
    TISCategorySocialEngineering; TISCategoryObfuscation;
    TISCategoryMultiTurn; TISCategoryIndirectInjection; TISCategoryUnknown ].

(** The entries of the map literal [internalCategoryMapping], in source
    order (a Go map literal has pairwise distinct keys). *)
Definition internalCategoryEntries : list (string * TISCategory) :=
  [ ("instruction_override", TISCategoryInstructionOverride);
    ("authority_bypass", TISCategoryJailbreak);
    ("information_extraction", TISCategoryDataExfil);
    ("roleplay_attack", TISCategoryRoleplay);
    ("code_execution", TISCategoryCommandInjection);
    ("fiction_frame", TISCategoryMultiTurn);
    ("persona_hijack", TISCategoryJailbreak);
    ("eval_abuse", TISCategoryJailbreak);
    ("escalation", TISCategoryMultiTurn);
    ("safety_disable", TISCategoryJailbreak);
    ("restrictions_disable", TISCategoryJailbreak);
    ("filter_disable", TISCategoryJailbreak);
    ("unsafe_mode", TISCategoryJailbreak);
    ("admin_override", TISCategoryImpersonation);
    ("elevated_trust", TISCategoryImpersonation);
    ("xml_policy", TISCategoryInstructionOverride);
    ("ini_policy", TISCategoryInstructionOverride);
    ("xss", TISCategoryCommandInjection);
    ("sql_injection", TISCategoryCommandInjection);
    ("code_injection", TISCategoryCommandInjection);
    ("command_injection", TISCategoryCommandInjection);
    ("path_traversal", TISCategoryFileAccess);
    ("deserialization", TISCategoryCommandInjection);
    ("ssrf", TISCategoryIndirectInjection);
    ("csrf", TISCategoryIndirectInjection);
    ("auth_bypass", TISCategoryImpersonation);
    ("hardcoded_creds", TISCategoryDataExfil);
    ("info_disclosure", TISCategoryDataExfil);
    ("file_upload", TISCategoryFileAccess);
    ("memory_corruption", TISCategoryCommandInjection);
    ("buffer_overflow", TISCategoryCommandInjection);
    ("use_after_free", TISCategoryCommandInjection);
    ("privilege_escalation", TISCategoryImpersonation);
    ("vulnerability", TISCategoryUnknown);
    ("injection", TISCategoryCommandInjection);
    ("rce", TISCategoryCommandInjection);
    ("dos", TISCategoryTokenExhaustion);
    ("malware", TISCategoryIndirectInjection);
    ("supply_chain", TISCategoryIndirectInjection);
    ("jailbreak", TISCategoryJailbreak);
    ("roleplay", TISCategoryRoleplay);
    ("data_exfil", TISCategoryDataExfil);
    ("data_dump", TISCategoryDataDump);
    ("file_access", TISCategoryFileAccess);
    ("context_manipulation", TISCategoryContextManipulation);
    ("token_exhaustion", TISCategoryTokenExhaustion);
    ("goal_hijacking", TISCategoryGoalHijacking);
    ("autonomy_abuse", TISCategoryAutonomyAbuse);
    ("hallucination_injection", TISCategoryHallucinationInjection);
    ("mcp_injection", TISCategoryMCPInjection);
    ("payment_fraud", TISCategoryPaymentFraud);
    ("impersonation", TISCategoryImpersonation);
    ("psychological", TISCategoryPsychological);
    ("social_engineering", TISCategorySocialEngineering);
    ("obfuscation", TISCategoryObfuscation);
    ("multi_turn", TISCategoryMultiTurn);
    ("indirect_injection", TISCategoryIndirectInjection) ].

Definition internalCategoryMapping : gmap string TISCategory :=
  list_to_map internalCategoryEntries.

(** [categoryToLower]: bytes ['A'..'Z'] are shifted by ['a' - 'A']. *)
Definition lowerByte (c : ascii) : ascii :=
  let n := nat_of_ascii c in
  if (65 <=? n)%nat && (n <=? 90)%nat then ascii_of_nat (n + 32) else c.

Fixpoint categoryToLower (s : string) : string :=
  match s with
  | EmptyString => EmptyString
  | String c rest => String (lowerByte c) (categoryToLower rest)
  end.

(** [categoryContainsSubstr]: the loop tries every start index [i] with
    [0 <= i <= len(s) - len(substr)]. *)
Definition categoryContainsSubstr (s substr : string) : bool :=
  let n := String.length substr in
  if (n =? 0)%nat then true
  else if (String.length s <? n)%nat then false
  else existsb (fun i => String.eqb (substring i n s) substr)
               (seq 0 (String.length s - n + 1)).

Definition categoryContainsAny (category : string) (substrs : list string)
  : bool :=
  let lower := categoryToLower category in
  existsb (fun s => categoryContainsSubstr lower s) substrs.

(** The keyword fallback of [NormalizeCategory]: the cases of its
    [switch], tried in order. *)
Definition categoryKeywordCases : list (list string * TISCategory) :=
  [ (["inject"; "override"; "ignore"; "bypass"], TISCategoryInstructionOverride);
    (["jailbreak"; "dan"; "unrestrict"; "persona"], TISCategoryJailbreak);
    (["exfil"; "extract"; "leak"; "expose"], TISCategoryDataExfil);
    (["exec"; "shell"; "command"; "code"], TISCategoryCommandInjection);
    (["obfusc"; "encod"; "evas"], TISCategoryObfuscation);
    (["social"; "manipul"; "urgen"; "pressure"], TISCategorySocialEngineering);
    (["multi"; "turn"; "crescendo"; "escal"], TISCategoryMultiTurn);
    (["payment"; "fraud"; "wallet"; "x402"], TISCategoryPaymentFraud);
    (["imperson"; "authority"; "admin"], TISCategoryImpersonation);
    (["file"; "path"; "traversal"], TISCategoryFileAccess);
    (["mcp"; "tool"; "agent"], TISCategoryMCPInjection) ].

Fixpoint keywordFallback (category : string)
  (cases : list (list string * TISCategory)) : TISCategory :=
  match cases with
  | [] => TISCategoryUnknown
  | (substrs, tis) :: rest =>
      if categoryContainsAny category substrs then tis
      else keywordFallback category rest
  end.

Definition NormalizeCategory (category : string) : TISCategory :=
  if String.eqb category "" then TISCategoryUnknown
  else
    match internalCategoryMapping !! category with
    | Some tis => tis
    | None => keywordFallback category categoryKeywordCases
    end.

(* ===================================================================== *)
(** ** Scorer configuration and the benign-pattern discount               *)
(* ===================================================================== *)

Record ScorerConfig : Type := mkScorerConfig {
  KeywordWeights : gmap string float64;
  CryptoPatterns : gmap string float64;
  ToolPoisonPatterns : gmap string float64;
  BenignPatterns : gmap string float64
}.

(** [GetBenignPatterns]; the package variable [scorerConfig] is passed
    explicitly, [None] being the [nil] pointer.  The lock only guards the
    read and has no counterpart here. *)
Definition GetBenignPatterns (scorerConfig : option ScorerConfig)
  : gmap string float64 :=
  match scorerConfig with
  | Some config =>
      if (0 <? size (BenignPatterns config))%nat then BenignPatterns config
      else ∅
  | None => ∅
  end.

Definition MaxBenignDiscount : float64 := -0.65.

(** [strings.Contains]: [substr] occurs in [s] as a run of bytes. *)
Definition strings_Contains (s substr : string) : bool :=
  let n := String.length substr in
  if (String.length s <? n)%nat then false
  else existsb (fun i => String.eqb (substring i n s) substr)
               (seq 0 (String.length s - n + 1)).

Section BenignDiscount.

(** Go's [strings.ToLower] (Unicode-aware lower-casing), a function of
    the standard library, taken as a parameter. *)
Variable strings_ToLower : string -> string.

(** Body of the [range] loop; the state is [(discount, matched)]. *)
Definition benignStep (textLower : string)
  (st : float64 * list string) (entry : string * float64)
  : float64 * list string :=
  if strings_Contains textLower (strings_ToLower (fst entry))
  then (fst st + snd entry, (snd st ++ [fst entry])%list)
  else st.

(** [ApplyBenignPatternDiscount].  The loop ranges over the map in the
    order of [map_to_list]; Go leaves the order unspecified. *)
Definition ApplyBenignPatternDiscount
  (scorerConfig : option ScorerConfig) (text : string)
  : float64 * list string :=
  let benignPatterns := GetBenignPatterns scorerConfig in
  if (size benignPatterns =? 0)%nat then (0, [])
  else
    let textLower := strings_ToLower text in
    let st := fold_left (benignStep textLower)
                        (map_to_list benignPatterns) (0, []) in
    let discount :=
      if Qltb (fst st) MaxBenignDiscount then MaxBenignDiscount else fst st in
    (discount, snd st).

End BenignDiscount.

(* ===================================================================== *)
(** ** Gzip-in-Base64 decoder                                             *)
(* ===================================================================== *)

(** The cap on decompressed output, [1024 * 1024] bytes. *)
Definition MaxGzipOutput : N := (1024 * 1024)%N.

(** First [n] bytes of [s]: what reading through a limited reader keeps. *)
Fixpoint limitBytes (n : nat) (s : string) : string :=
  match n, s with
  | O, _ => EmptyString
  | S _, EmptyString => EmptyString
  | S n', String c rest => String c (limitBytes n' rest)
  end.

Section GzipDecoder.

(** The collaborators of the decoder: locating the Base64 run that may
    hold a gzip stream, Base64 decoding, and gzip decompression (the
    whole output the stream would expand to, or [None] when the stream
    is invalid). *)
Variable findGzipCandidate : string -> option string.
Variable base64Decode : string -> option string.
Variable gunzip : string -> option string.

(** Modelled from the spec: [TryGzipDecompress], whose file is not part
    of the sources (only its tests and benchmark are).  "Gzip-in-Base64:
    decode, decompress, hard-cap output at 1 MiB"; a decoder "returns
    empty if it found nothing it would call a transformation". *)
Definition TryGzipDecompress (input : string) : string :=
  match findGzipCandidate input with
  | None => ""
  | Some encoded =>
      match base64Decode encoded with
      | None => ""
      | Some compressed =>
          match gunzip compressed with
          | None => ""
          | Some output => limitBytes (N.to_nat MaxGzipOutput) output
          end
      end
  end.

End GzipDecoder.

(* ===================================================================== *)
(** ** Vocabulary of the specification                                    *)
(* ===================================================================== *)

(** The order MINIMAL < LOW < MEDIUM < HIGH < CRITICAL on risk levels. *)
Definition riskRank (level : string) : nat :=
  if String.eqb level "CRITICAL" then 4
  else if String.eqb level "HIGH" then 3
  else if String.eqb level "MEDIUM" then 2
  else if String.eqb level "LOW" then 1
  else 0.

(** The sum of [f s] over the signals of a list: the big sums of the
    specification's fusion formula. *)
Fixpoint sumOver (f : DetectionSignal -> Q) (l : list DetectionSignal) : Q :=
  match l with
  | [] => 0
  | s :: rest => f s + sumOver f rest
  end.

(** Numerator and denominator of the confidence-weighted mean, following
    the specification: sum of [score * weight * confidence] and sum of
    [weight * confidence]. *)
Definition weightedScoreSum (l : list DetectionSignal) : Q :=
  sumOver (fun s => Score s * Weight s * Confidence s) l.

Definition effectiveWeightSum (l : list DetectionSignal) : Q :=
  sumOver (fun s => Weight s * Confidence s) l.

(** The running sum [((acc + f s1) + f s2) + ...] in binary64, the terms
    taken in list order and every addition rounded. *)
Fixpoint runningSum_binary64 (f : SignalBinary64 -> float) (acc : float)
  (l : list SignalBinary64) : float :=
  match l with
  | [] => acc
  | s :: rest => runningSum_binary64 f (acc + f s)%float rest
  end.


Definition effectiveWeightSum_binary64 (l : list SignalBinary64) : float :=
  runningSum_binary64
    (fun s => (Weight_binary64 s * Confidence_binary64 s)%float) 0%float l.

(** The rational number a finite binary64 value stands for: sign, integer
    mantissa [m] and exponent [e] give [+-m * 2^e]; the zeros give 0 (NaN
    and the infinities stand for no number and are sent to 0 as well). *)
Definition exactValue (x : float) : Q :=
  match FloatOps.Prim2SF x with
  | SpecFloat.S754_finite s m e =>
      let v := inject_Z (Z.pos m) * Qpower 2 e in
      if s then - v else v
  | _ => 0
  end.

(** The sum of [f s] over a list, in exact arithmetic. *)
Fixpoint exactSum (f : SignalBinary64 -> Q) (l : list SignalBinary64) : Q :=
  match l with
  | [] => 0
  | s :: rest => f s + exactSum f rest
  end.

(** The sum of effective weights [weight * confidence] and the
    confidence-weighted mean of the specification, computed exactly on the
    numbers the binary64 fields stand for. *)
Definition exactEffectiveWeightSum (l : list SignalBinary64) : Q :=
  exactSum (fun s => exactValue (Weight_binary64 s)
                     * exactValue (Confidence_binary64 s)) l.

Definition exactWeightedMean (l : list SignalBinary64) : Q :=
  exactSum (fun s => exactValue (Score_binary64 s)
                     * exactValue (Weight_binary64 s)
                     * exactValue (Confidence_binary64 s)) l
  / exactEffectiveWeightSum l.

(** Sum of the weights of the benign patterns that occur in the text. *)
Fixpoint matchedWeightSum (toLower : string -> string) (textLower : string)
  (entries : list (string * float64)) : Q :=
  match entries with
  | [] => 0
  | entry :: rest =>
      if strings_Contains textLower (toLower (fst entry))
      then snd entry + matchedWeightSum toLower textLower rest
      else matchedWeightSum toLower textLower rest
  end.

(** The action of a result agrees with its final score under the default
    thresholds [block_threshold = 0.70] and [warn_threshold = 0.40]. *)
Definition ActionMatchesScore (r : AggregatedResult) : Prop :=
  (Action r = "BLOCK" <-> 0.70 <= FinalScore r)
  /\ (Action r = "WARN" <-> 0.40 <= FinalScore r /\ FinalScore r < 0.70)
  /\ (Action r = "ALLOW" <-> FinalScore r < 0.40).

(* ===================================================================== *)
(** ** Concrete signals and aggregators used in the examples              *)
(* ===================================================================== *)

(** A signal with weight 1, no reasons, no latency and no metadata. *)
Definition plainSignal (source : SignalSource) (score confidence : float64)
  (label : string) (obfuscation : list ObfuscationType) : DetectionSignal :=
  {| Source := source; Score := score; Confidence := confidence;
     Label := label; Weight := 1; Reasons := [];
     ObfuscationTypes := obfuscation; LatencyMs := 0; Metadata := ∅ |}.

(** The signal of the secrets classifier on a credential hit. *)
Definition secretsSignal : DetectionSignal :=
  {| Source := SignalSourceHeuristic; Score := 1; Confidence := 1;
     Label := "INJECTION"; Weight := 1; Reasons := ["aws_key"];
     ObfuscationTypes := []; LatencyMs := 0.2;
     Metadata := {[ "secrets_found" := MetaBool true ]} |}.

Definition aggregatorOf (l : list DetectionSignal) : SignalAggregator :=
  {| thresholds := DefaultAggregationThresholds; signals := l |}.

(** A confident SAFE verdict of BERT next to a secrets hit. *)
Definition secretsAmongSafe : SignalAggregator :=
  aggregatorOf [plainSignal SignalSourceBERT 0.01 0.99 "SAFE" []; secretsSignal].

(** Heuristic and LLM both SAFE at the same confidence 0.9; the heuristic
    signal was added first. *)
Definition tiedHeuristicThenLLM : SignalAggregator :=
  aggregatorOf [plainSignal SignalSourceHeuristic 0.1 0.9 "SAFE" [];
                plainSignal SignalSourceLLM 0.2 0.9 "SAFE" []].

(** The same two signals, the LLM signal added first. *)
Definition tiedLLMThenHeuristic : SignalAggregator :=
  aggregatorOf [plainSignal SignalSourceLLM 0.2 0.9 "SAFE" [];
                plainSignal SignalSourceHeuristic 0.1 0.9 "SAFE" []].

(** Base64 was decoded, the heuristic scores 0.4 on the decoded text and
    BERT says SAFE at confidence 0.6. *)
Definition obfuscatedHeuristic04 : SignalAggregator :=
  aggregatorOf [plainSignal SignalSourceHeuristic 0.4 0.5 "INJECTION" ["base64"];
                plainSignal SignalSourceBERT 0.2 0.6 "SAFE" []].

(** As above with a heuristic score of 0.6. *)
Definition obfuscatedHeuristic06 : SignalAggregator :=
  aggregatorOf [plainSignal SignalSourceHeuristic 0.6 0.5 "INJECTION" ["base64"];
                plainSignal SignalSourceBERT 0.2 0.6 "SAFE" []].

(** Two low-confidence signals, no obfuscation. *)
Definition twoWeakSignals : SignalAggregator :=
  aggregatorOf [plainSignal SignalSourceHeuristic 0.6 0.5 "INJECTION" [];
                plainSignal SignalSourceSemantic 0.2 0.5 "SAFE" []].

(** The default thresholds with the safeguard escalation threshold moved
    down to 0, as [NewSignalAggregatorWithThresholds] accepts them. *)
Definition zeroSafeguardThresholds : AggregationThresholds :=
  {| FastPathBlock := FastPathBlock DefaultAggregationThresholds;
     FastPathAllow := FastPathAllow DefaultAggregationThresholds;
     BERTEscalation := BERTEscalation DefaultAggregationThresholds;
     SafeguardEscalation := 0;
     ObfuscationBoost := ObfuscationBoost DefaultAggregationThresholds;
     HighConfidenceThreshold :=
       HighConfidenceThreshold DefaultAggregationThresholds;
     LowConfidenceThreshold :=
       LowConfidenceThreshold DefaultAggregationThresholds |}.

#[local] Set Warnings "-inexact-float".



(** Two signals of weight 1 and confidence 0.5 with scores 0.5 and 0.25:
    every intermediate result is a binary64 number. *)
Definition dyadicSignals_binary64 : list SignalBinary64 :=
  [ {| Score_binary64 := 0.5; Weight_binary64 := 1;
       Confidence_binary64 := 0.5 |};
    {| Score_binary64 := 0.25; Weight_binary64 := 1;
       Confidence_binary64 := 0.5 |} ].

(** A scorer configuration with two benign phrases. *)
Definition benignConfig : ScorerConfig :=
  {| KeywordWeights := ∅;
     CryptoPatterns := ∅;
     ToolPoisonPatterns := ∅;
     BenignPatterns := {[ "unit test" := -0.4; "documentation" := -0.4 ]} |}.

(* ===================================================================== *)
(** * Properties                                                          *)
(* ===================================================================== *)

Local Open Scope list_scope.

(** ** Boolean comparisons on float64 *)

Lemma Qgeb_true (x y : Q) : Qgeb x y = true <-> y <= x.
Proof. unfold Qgeb. apply Qle_bool_iff. Qed.

Lemma Qgeb_false (x y : Q) : Qgeb x y = false <-> x < y.
Proof.
  unfold Qgeb. split; intros H.
  - apply Qnot_le_lt. intros Hle. apply Qle_bool_iff in Hle. congruence.
  - destruct (Qle_bool y x) eqn:E; [|reflexivity].
    apply Qle_bool_iff in E. exfalso. apply (Qlt_not_le _ _ H E).
Qed.

Lemma Qltb_true (x y : Q) : Qltb x y = true <-> x < y.
Proof.
  unfold Qltb. rewrite negb_true_iff. apply (Qgeb_false x y).
Qed.

Lemma Qltb_false (x y : Q) : Qltb x y = false <-> y <= x.
Proof.
  unfold Qltb. rewrite negb_false_iff. apply (Qgeb_true x y).
Qed.

Lemma Qgtb_true (x y : Q) : Qgtb x y = true <-> y < x.
Proof. apply (Qltb_true y x). Qed.

Lemma Qgtb_false (x y : Q) : Qgtb x y = false <-> x <= y.
Proof. apply (Qltb_false y x). Qed.

Lemma Qeqb_true (x y : Q) : Qeqb x y = true <-> x == y.
Proof. unfold Qeqb. apply Qeq_bool_iff. Qed.

(** Turn every boolean comparison among the hypotheses into the order
    relation it decides. *)
Ltac qprops :=
  repeat match goal with
  | H : Qgeb _ _ = true |- _ => apply Qgeb_true in H
  | H : Qgeb _ _ = false |- _ => apply Qgeb_false in H
  | H : Qltb _ _ = true |- _ => apply Qltb_true in H
  | H : Qltb _ _ = false |- _ => apply Qltb_false in H
  | H : Qgtb _ _ = true |- _ => apply Qgtb_true in H
  | H : Qgtb _ _ = false |- _ => apply Qgtb_false in H
  end.

(** ** Actions and risk levels against the thresholds table *)

Lemma scoreToAction_consistent (s : float64) :
  (scoreToAction s = "BLOCK" <-> 0.70 <= s)
  /\ (scoreToAction s = "WARN" <-> 0.40 <= s /\ s < 0.70)
  /\ (scoreToAction s = "ALLOW" <-> s < 0.40).
Proof.
  unfold scoreToAction.
  destruct (Qgeb s 0.70) eqn:Hb; [|destruct (Qgeb s 0.40) eqn:Hw]; qprops;
    repeat split; intros; try discriminate; try reflexivity;
    try assumption; try lra.
Qed.


(** ** TIER 0 *)

Lemma find_secrets_some (l : list DetectionSignal) (s : DetectionSignal) :
  In s l -> secretsFound s = true -> exists s', List.find secretsFound l = Some s'.
Proof.
  intros Hin Hs. destruct (List.find secretsFound l) as [s'|] eqn:E.
  - exists s'. reflexivity.
  - pose proof (find_none _ _ E s Hin) as Hn. congruence.
Qed.

(** C1. Whenever some signal's metadata holds [secrets_found = true],
    [Aggregate] returns final score 1.0, action BLOCK, risk level CRITICAL
    and decision path TIER_0_SECRETS, whatever the other signals are. *)
Theorem Aggregate_secrets_block (a : SignalAggregator) (s : DetectionSignal) :
  In s (signals a) ->
  Metadata s !! "secrets_found" = Some (MetaBool true) ->
  FinalScore (Aggregate a) = 1
  /\ Action (Aggregate a) = "BLOCK"
  /\ RiskLevel (Aggregate a) = "CRITICAL"
  /\ DecisionPath (Aggregate a) = "TIER_0_SECRETS".
Proof.
  intros Hin Hmeta.
  assert (Hs : secretsFound s = true) by (unfold secretsFound; rewrite Hmeta; reflexivity).
  destruct (find_secrets_some _ _ Hin Hs) as [s' Hfind].
  unfold Aggregate, aggregateTier0. rewrite Hfind. cbn. repeat split.
Qed.

Lemma Aggregate_secrets_block_witness :
  FinalScore (Aggregate secretsAmongSafe) = 1
  /\ Action (Aggregate secretsAmongSafe) = "BLOCK"
  /\ RiskLevel (Aggregate secretsAmongSafe) = "CRITICAL"
  /\ DecisionPath (Aggregate secretsAmongSafe) = "TIER_0_SECRETS".
Proof.
  apply (Aggregate_secrets_block secretsAmongSafe secretsSignal).
  - right. left. reflexivity.
  - reflexivity.
Defined.

(** ** Action against final score, tier by tier *)

Lemma resultWith_scoreToAction (a : SignalAggregator) (score : float64)
  (risk reason path : string) (esc : EscalationType) :
  ActionMatchesScore (resultWith a score (scoreToAction score) risk reason path esc).
Proof. unfold ActionMatchesScore; cbn. apply scoreToAction_consistent. Qed.

Lemma resultWith_block (a : SignalAggregator) (score : float64)
  (risk reason path : string) (esc : EscalationType) :
  0.70 <= score ->
  ActionMatchesScore (resultWith a score "BLOCK" risk reason path esc).
Proof.
  intros Hs. unfold ActionMatchesScore; cbn.
  repeat split; intros; try discriminate; try reflexivity; try assumption; lra.
Qed.

Lemma aggregateTier0_consistent (a : SignalAggregator) (r : AggregatedResult) :
  aggregateTier0 a = Some r -> ActionMatchesScore r.
Proof.
  unfold aggregateTier0. intros H.
  destruct (List.find secretsFound (signals a)).
  - injection H as <-. apply resultWith_block. lra.
  - destruct (List.find _ (signals a)) as [s|] eqn:E; [|discriminate].
    injection H as <-. apply find_some in E. destruct E as [_ E].
    apply andb_true_iff in E. destruct E as [E _]. qprops.
    apply resultWith_block. lra.
Qed.

Lemma aggregateTier1_consistent (a : SignalAggregator) (r : AggregatedResult) :
  aggregateTier1 a = Some r -> ActionMatchesScore r.
Proof.
  unfold aggregateTier1. intros H.
  destruct (sort_Slice _ _) as [|top rest]; [discriminate|].
  destruct (forallb _ _); [|discriminate].
  injection H as <-. apply resultWith_scoreToAction.
Qed.

Lemma aggregateTier2_consistent (a : SignalAggregator) (r : AggregatedResult) :
  aggregateTier2 a = Some r -> ActionMatchesScore r.
Proof.
  unfold aggregateTier2, obfuscationVeto, obfuscationBoost. intros H.
  destruct (HasObfuscation a); [|discriminate].
  destruct (GetSignal a SignalSourceHeuristic) as [h|]; [|discriminate].
  destruct (GetSignal a SignalSourceBERT) as [b|]; [|discriminate].
  repeat match type of H with
         | context [if ?c then _ else _] => destruct c
         end;
    try discriminate; injection H as <-; apply resultWith_scoreToAction.
Qed.

Lemma aggregateTier3_consistent (a : SignalAggregator) :
  ActionMatchesScore (aggregateTier3 a).
Proof. unfold aggregateTier3. apply resultWith_scoreToAction. Qed.

(** C2. For every list of signals (and every thresholds record) the action
    of the result of [Aggregate] agrees with its final score: BLOCK iff
    [final_score >= 0.70], WARN iff [0.40 <= final_score < 0.70], ALLOW
    otherwise; this covers every decision path, TIER 0 to TIER 3. *)
Theorem Aggregate_action_matches_score (a : SignalAggregator) :
  (Action (Aggregate a) = "BLOCK" <-> 0.70 <= FinalScore (Aggregate a))
  /\ (Action (Aggregate a) = "WARN"
      <-> 0.40 <= FinalScore (Aggregate a) /\ FinalScore (Aggregate a) < 0.70)
  /\ (Action (Aggregate a) = "ALLOW" <-> FinalScore (Aggregate a) < 0.40).
Proof.
  change (ActionMatchesScore (Aggregate a)). unfold Aggregate.
  destruct (aggregateTier0 a) as [r0|] eqn:E0;
    [exact (aggregateTier0_consistent a r0 E0)|].
  destruct (aggregateTier1 a) as [r1|] eqn:E1;
    [exact (aggregateTier1_consistent a r1 E1)|].
  destruct (aggregateTier2 a) as [r2|] eqn:E2;
    [exact (aggregateTier2_consistent a r2 E2)|].
  apply aggregateTier3_consistent.
Qed.

(** A vetoed score of 0.52 gives WARN; a secrets hit gives BLOCK. *)
Lemma Aggregate_action_matches_score_witness :
  Action (Aggregate obfuscatedHeuristic04) = "WARN"
  /\ Action (Aggregate secretsAmongSafe) = "BLOCK".
Proof.
  split.
  - apply (proj1 (proj2 (Aggregate_action_matches_score obfuscatedHeuristic04))).
    split; vm_compute; [discriminate | reflexivity].
  - apply (proj1 (Aggregate_action_matches_score secretsAmongSafe)).
    vm_compute. discriminate.
Defined.

(** ** Risk level against final score *)

Lemma scoreToRiskLevel_critical (s : Q) :
  0.90 <= s -> scoreToRiskLevel s = "CRITICAL".
Proof.
  intros Hs. unfold scoreToRiskLevel.
  apply Qgeb_true in Hs. rewrite Hs. reflexivity.
Qed.

Lemma aggregateTier0_risk (a : SignalAggregator) (r : AggregatedResult) :
  aggregateTier0 a = Some r -> RiskLevel r = scoreToRiskLevel (FinalScore r).
Proof.
  unfold aggregateTier0. intros H.
  destruct (List.find secretsFound (signals a)).
  - injection H as <-. reflexivity.
  - destruct (List.find _ (signals a)) as [s|] eqn:E; [|discriminate].
    injection H as <-. apply find_some in E. destruct E as [_ E].
    apply andb_true_iff in E. destruct E as [E _]. qprops.
    cbn. symmetry. apply scoreToRiskLevel_critical. lra.
Qed.

Lemma aggregateTier1_risk (a : SignalAggregator) (r : AggregatedResult) :
  aggregateTier1 a = Some r -> RiskLevel r = scoreToRiskLevel (FinalScore r).
Proof.
  unfold aggregateTier1. intros H.
  destruct (sort_Slice _ _) as [|top rest]; [discriminate|].
  destruct (forallb _ _); [|discriminate].
  injection H as <-. reflexivity.
Qed.

Lemma aggregateTier2_risk (a : SignalAggregator) (r : AggregatedResult) :
  aggregateTier2 a = Some r -> RiskLevel r = scoreToRiskLevel (FinalScore r).
Proof.
  unfold aggregateTier2, obfuscationVeto, obfuscationBoost. intros H.
  destruct (HasObfuscation a); [|discriminate].
  destruct (GetSignal a SignalSourceHeuristic) as [h|]; [|discriminate].
  destruct (GetSignal a SignalSourceBERT) as [b|]; [|discriminate].
  repeat match type of H with
         | context [if ?c then _ else _] => destruct c
         end;
    try discriminate; injection H as <-; reflexivity.
Qed.

(** C6. The risk level is a pure function of the final score:
    [scoreToRiskLevel] implements exactly the table CRITICAL for
    [s >= 0.90], HIGH for [0.70 <= s < 0.90], MEDIUM for
    [0.50 <= s < 0.70], LOW for [0.30 <= s < 0.50], MINIMAL otherwise; it
    is therefore monotonically non-decreasing in the score under the order
    MINIMAL < LOW < MEDIUM < HIGH < CRITICAL; and on every decision path
    the risk level of the result of [Aggregate] is [scoreToRiskLevel] of
    its final score. *)
Theorem scoreToRiskLevel_table_monotone :
  (forall s : float64,
      (scoreToRiskLevel s = "CRITICAL" <-> 0.90 <= s)
      /\ (scoreToRiskLevel s = "HIGH" <-> 0.70 <= s /\ s < 0.90)
      /\ (scoreToRiskLevel s = "MEDIUM" <-> 0.50 <= s /\ s < 0.70)
      /\ (scoreToRiskLevel s = "LOW" <-> 0.30 <= s /\ s < 0.50)
      /\ (scoreToRiskLevel s = "MINIMAL" <-> s < 0.30))
  /\ (forall s1 s2 : float64,
         s1 <= s2 ->
         (riskRank (scoreToRiskLevel s1) <= riskRank (scoreToRiskLevel s2))%nat)
  /\ (forall a : SignalAggregator,
         RiskLevel (Aggregate a) = scoreToRiskLevel (FinalScore (Aggregate a))).
Proof.
  split; [|split].
  - intros s. unfold scoreToRiskLevel.
    destruct (Qgeb s 0.90) eqn:H9;
      [|destruct (Qgeb s 0.70) eqn:H7;
        [|destruct (Qgeb s 0.50) eqn:H5;
          [|destruct (Qgeb s 0.30) eqn:H3]]];
      qprops; repeat split; intros; try discriminate; try reflexivity;
      try assumption; try lra.
  - intros s1 s2 Hle. unfold scoreToRiskLevel.
    destruct (Qgeb s2 0.90) eqn:A9; destruct (Qgeb s2 0.70) eqn:A7;
      destruct (Qgeb s2 0.50) eqn:A5; destruct (Qgeb s2 0.30) eqn:A3;
      destruct (Qgeb s1 0.90) eqn:B9; destruct (Qgeb s1 0.70) eqn:B7;
      destruct (Qgeb s1 0.50) eqn:B5; destruct (Qgeb s1 0.30) eqn:B3;
      qprops; try (exfalso; lra); cbn; lia.
  - intros a. unfold Aggregate.
    destruct (aggregateTier0 a) as [r0|] eqn:E0;
      [exact (aggregateTier0_risk a r0 E0)|].
    destruct (aggregateTier1 a) as [r1|] eqn:E1;
      [exact (aggregateTier1_risk a r1 E1)|].
    destruct (aggregateTier2 a) as [r2|] eqn:E2;
      [exact (aggregateTier2_risk a r2 E2)|].
    reflexivity.
Qed.

(** A score in the HIGH band and a larger one in the CRITICAL band. *)
Lemma scoreToRiskLevel_table_monotone_witness :
  scoreToRiskLevel 0.75 = "HIGH"
  /\ (riskRank (scoreToRiskLevel 0.75) <= riskRank (scoreToRiskLevel 0.95))%nat.
Proof.
  split.
  - apply (proj1 scoreToRiskLevel_table_monotone 0.75). split; lra.
  - apply (proj1 (proj2 scoreToRiskLevel_table_monotone) 0.75 0.95). lra.
Defined.

(** ** No signals at all *)

(** C10, as the code has it.  With an empty signal list and a positive
    safeguard escalation threshold (the default one is 0.40) [Aggregate]
    returns a well-formed result: final score 0.0, action ALLOW, risk level
    MINIMAL, reason "No signals", decision path
    TIER_3_WEIGHTED_AGGREGATION, no obfuscation and no escalation.  The
    aggregator of [NewSignalAggregator] is the instance
    [t = DefaultAggregationThresholds]. *)
Theorem Aggregate_no_signals (t : AggregationThresholds) :
  0 < SafeguardEscalation t ->
  Aggregate {| thresholds := t; signals := [] |}
  = {| FinalScore := 0;
       Action := "ALLOW";
       RiskLevel := "MINIMAL";
       Reason := "No signals";
       DecisionPath := "TIER_3_WEIGHTED_AGGREGATION";
       Signals := [];
       WasDeobfuscated := false;
       AllObfuscationTypes := [];
       EscalationNeeded := EscalationNone;
       TotalLatencyMs := 0 |}.
Proof.
  intros Hpos.
  assert (Hsg : Qgeb 0 (SafeguardEscalation t) = false)
    by (apply Qgeb_false; exact Hpos).
  unfold Aggregate, aggregateTier0, aggregateTier1, aggregateTier2,
    aggregateTier3, ShouldEscalateToSafeguard, ShouldTriggerDeeperGoAnalysis,
    resultWith, calculateWeightedScore, buildAggregationReason, HasObfuscation,
    GetAllObfuscationTypes, HasSignal, GetSignal.
  cbn. rewrite Hsg. cbn. reflexivity.
Qed.

Lemma Aggregate_no_signals_witness :
  Aggregate NewSignalAggregator
  = {| FinalScore := 0;
       Action := "ALLOW";
       RiskLevel := "MINIMAL";
       Reason := "No signals";
       DecisionPath := "TIER_3_WEIGHTED_AGGREGATION";
       Signals := [];
       WasDeobfuscated := false;
       AllObfuscationTypes := [];
       EscalationNeeded := EscalationNone;
       TotalLatencyMs := 0 |}.
Proof.
  apply (Aggregate_no_signals DefaultAggregationThresholds). reflexivity.
Defined.

(** C10 as stated fails without the condition on the threshold: an
    aggregator made by [NewSignalAggregatorWithThresholds] with a safeguard
    escalation threshold of 0 and no signals added has the weighted score 0
    inside the window [0 <= score <= 0.70] of [ShouldEscalateToSafeguard],
    no high-confidence signal speaks against it, and TIER 3 asks for the
    safeguard: [escalation_needed] is "safeguard", not empty.  The other
    fields are those of the claim. *)
Lemma Aggregate_no_signals_escalates_at_zero_threshold :
  signals (NewSignalAggregatorWithThresholds zeroSafeguardThresholds) = []
  /\ ShouldEscalateToSafeguard
       (NewSignalAggregatorWithThresholds zeroSafeguardThresholds) = true
  /\ Aggregate (NewSignalAggregatorWithThresholds zeroSafeguardThresholds)
     = {| FinalScore := 0;
          Action := "ALLOW";
          RiskLevel := "MINIMAL";
          Reason := "No signals";
          DecisionPath := "TIER_3_WEIGHTED_AGGREGATION";
          Signals := [];
          WasDeobfuscated := false;
          AllObfuscationTypes := [];
          EscalationNeeded := EscalationSafeguard;
          TotalLatencyMs := 0 |}
  /\ EscalationSafeguard = "safeguard"%string.
Proof. repeat split. Qed.

(** ** TIER 3: the confidence-weighted mean *)

(** The two accumulators of the loop hold the partial sums. *)
Lemma fold_accumulateWeighted (l : list DetectionSignal) (ws tw : Q) :
  fst (fold_left accumulateWeighted l (ws, tw)) == ws + weightedScoreSum l
  /\ snd (fold_left accumulateWeighted l (ws, tw)) == tw + effectiveWeightSum l.
Proof.
  revert ws tw. induction l as [|s l IH]; intros ws tw.
  - cbn. split; ring.
  - cbn [fold_left]. unfold accumulateWeighted at 2 4. cbn [fst snd].
    destruct (IH (ws + Score s * (Weight s * Confidence s))
                 (tw + Weight s * Confidence s)) as [IH1 IH2].
    rewrite IH1, IH2. unfold weightedScoreSum, effectiveWeightSum.
    cbn [sumOver]. split; ring.
Qed.

(** In exact arithmetic, that is in the rational model of [float64], the
    loop computes the confidence-weighted mean: the sum of
    [score * weight * confidence] divided by the sum of
    [weight * confidence] over all signals; when the sum of effective
    weights is zero, the empty list included, the result is 0.  It is the
    final score of TIER 3 when no obfuscation was observed (otherwise the
    boost may apply on top of it).  What rounding makes of this at run time
    is the subject of the next section. *)
Theorem calculateWeightedScore_mean (a : SignalAggregator) :
  (~ effectiveWeightSum (signals a) == 0 ->
   calculateWeightedScore a
   == weightedScoreSum (signals a) / effectiveWeightSum (signals a))
  /\ (effectiveWeightSum (signals a) == 0 -> calculateWeightedScore a = 0)
  /\ (signals a = [] -> calculateWeightedScore a = 0)
  /\ (HasObfuscation a = false ->
      FinalScore (aggregateTier3 a) = calculateWeightedScore a).
Proof.
  assert (Htier3 : HasObfuscation a = false ->
                   FinalScore (aggregateTier3 a) = calculateWeightedScore a).
  { intros Hobf. unfold aggregateTier3. rewrite Hobf. reflexivity. }
  unfold calculateWeightedScore in *.
  destruct (fold_accumulateWeighted (signals a) 0 0) as [Hn Hd].
  rewrite Qplus_0_l in Hn, Hd.
  destruct (signals a) as [|s l] eqn:Hsig.
  - repeat split; intros; try reflexivity. apply Htier3. assumption.
  - split; [|split; [|split]].
    + intros Hnz.
      destruct (Qeqb _ 0) eqn:E.
      * apply Qeqb_true in E. rewrite Hd in E. contradiction.
      * rewrite Hn, Hd. reflexivity.
    + intros Hz.
      destruct (Qeqb _ 0) eqn:E; [reflexivity|].
      assert (Hs : Qeqb (snd (fold_left accumulateWeighted (s :: l) (0, 0))) 0 = true)
        by (apply Qeqb_true; rewrite Hd; exact Hz).
      congruence.
    + discriminate.
    + exact Htier3.
Qed.

(** Two signals of weight 1 and confidence 0.5 with scores 0.6 and 0.2
    fuse to 0.4; an empty list fuses to 0. *)
Lemma calculateWeightedScore_mean_witness :
  calculateWeightedScore twoWeakSignals == 0.4
  /\ calculateWeightedScore NewSignalAggregator = 0.
Proof.
  split.
  - rewrite (proj1 (calculateWeightedScore_mean twoWeakSignals)).
    + reflexivity.
    + discriminate.
  - apply (proj1 (proj2 (proj2 (calculateWeightedScore_mean NewSignalAggregator)))).
    reflexivity.
Defined.

(** ** TIER 3 in binary64: the mean up to rounding *)


(** The rounded sum of effective weights of the empty list compares equal
    to zero. *)
Lemma effectiveWeightSum_binary64_nil :
  (effectiveWeightSum_binary64 [] =? 0)%float = true.
Proof. reflexivity. Qed.



(** Where no operation rounds, the loop does return the exact mean: two
    signals of weight 1 and confidence 0.5 with scores 0.5 and 0.25 fuse to
    0.375. *)
Example calculateWeightedScore_binary64_dyadic :
  calculateWeightedScore_binary64 dyadicSignals_binary64 = 0.375%float
  /\ exactValue (calculateWeightedScore_binary64 dyadicSignals_binary64)
     == exactWeightedMean dyadicSignals_binary64.
Proof. split; vm_compute; reflexivity. Qed.

(** ** TIER 2: the obfuscation veto *)

Lemma IsSafe_label (s : DetectionSignal) :
  Label s = "SAFE" -> IsSafe s = true /\ IsMalicious s = false.
Proof. unfold IsSafe, IsMalicious. intros ->. split; reflexivity. Qed.

Lemma clampToOne_ge_half (x : Q) : 0.5 <= x -> 0.5 <= clampToOne x.
Proof.
  intros Hx. unfold clampToOne. destruct (Qgtb x 1); [lra | exact Hx].
Qed.

(** C4, as the code has it.  In TIER 2 (no earlier tier fired, obfuscation
    observed, heuristic and BERT signals present, BERT says SAFE below the
    high-confidence threshold) the veto is decided on the boosted score,
    [heuristic * obfuscation_boost] cut to 1.0: if it is at least 0.5,
    [Aggregate] returns it with path TIER_2_OBFUSCATION_VETO and escalation
    [deeper_go]; if it is below 0.5 the veto does not fire and the decision
    falls to TIER 3.  With the default boost 1.3, a heuristic score of at
    least 0.5 always fires the veto. *)
Theorem Aggregate_obfuscation_veto
  (a : SignalAggregator) (heuristicSignal bertSignal : DetectionSignal) :
  aggregateTier0 a = None ->
  aggregateTier1 a = None ->
  HasObfuscation a = true ->
  GetSignal a SignalSourceHeuristic = Some heuristicSignal ->
  GetSignal a SignalSourceBERT = Some bertSignal ->
  Label bertSignal = "SAFE" ->
  Confidence bertSignal < HighConfidenceThreshold (thresholds a) ->
  (0.5 <= clampToOne (Score heuristicSignal * ObfuscationBoost (thresholds a)) ->
   FinalScore (Aggregate a)
   = clampToOne (Score heuristicSignal * ObfuscationBoost (thresholds a))
   /\ DecisionPath (Aggregate a) = "TIER_2_OBFUSCATION_VETO"
   /\ EscalationNeeded (Aggregate a) = EscalationDeeperGo)
  /\ (clampToOne (Score heuristicSignal * ObfuscationBoost (thresholds a)) < 0.5 ->
      DecisionPath (Aggregate a) = "TIER_3_WEIGHTED_AGGREGATION")
  /\ (ObfuscationBoost (thresholds a) == 1.3 ->
      0.5 <= Score heuristicSignal ->
      0.5 <= clampToOne (Score heuristicSignal * ObfuscationBoost (thresholds a))).
Proof.
  intros H0 H1 Hobf Hh Hb Hsafe Hconf.
  destruct (IsSafe_label _ Hsafe) as [Hs Hm].
  apply Qltb_true in Hconf.
  unfold Aggregate, aggregateTier2, obfuscationVeto, obfuscationBoost.
  rewrite H0, H1, Hobf, Hh, Hb, Hs, Hm, Hconf. cbn [andb].
  repeat split.
  - apply Qgeb_true in H. rewrite H. reflexivity.
  - apply Qgeb_true in H. rewrite H. reflexivity.
  - apply Qgeb_true in H. rewrite H. reflexivity.
  - intros Hlt. apply Qgeb_false in Hlt. rewrite Hlt. reflexivity.
  - intros Hboost Hscore. apply clampToOne_ge_half.
    rewrite Hboost. lra.
Qed.

(** A heuristic score of 0.6 on Base64-decoded text against an unsure
    SAFE of BERT: boosted to 0.78, vetoed. *)
Lemma Aggregate_obfuscation_veto_witness :
  FinalScore (Aggregate obfuscatedHeuristic06) = clampToOne (0.6 * 1.3)
  /\ DecisionPath (Aggregate obfuscatedHeuristic06) = "TIER_2_OBFUSCATION_VETO"
  /\ EscalationNeeded (Aggregate obfuscatedHeuristic06) = EscalationDeeperGo.
Proof.
  apply (proj1 (Aggregate_obfuscation_veto obfuscatedHeuristic06
                  (plainSignal SignalSourceHeuristic 0.6 0.5 "INJECTION" ["base64"])
                  (plainSignal SignalSourceBERT 0.2 0.6 "SAFE" [])
                  eq_refl eq_refl eq_refl eq_refl eq_refl eq_refl eq_refl)).
  vm_compute. discriminate.
Defined.

(** C4, the claim as stated fails: with a heuristic score of 0.4, below
    0.5, every premise of the veto holds and the veto fires all the same,
    because the test is on the boosted score [0.4 * 1.3 = 0.52]. *)
Lemma obfuscation_veto_fires_below_half :
  aggregateTier0 obfuscatedHeuristic04 = None
  /\ aggregateTier1 obfuscatedHeuristic04 = None
  /\ HasObfuscation obfuscatedHeuristic04 = true
  /\ GetSignal obfuscatedHeuristic04 SignalSourceHeuristic
     = Some (plainSignal SignalSourceHeuristic 0.4 0.5 "INJECTION" ["base64"])
  /\ GetSignal obfuscatedHeuristic04 SignalSourceBERT
     = Some (plainSignal SignalSourceBERT 0.2 0.6 "SAFE" [])
  /\ 0.4 < 0.5
  /\ DecisionPath (Aggregate obfuscatedHeuristic04) = "TIER_2_OBFUSCATION_VETO"
  /\ EscalationNeeded (Aggregate obfuscatedHeuristic04) = EscalationDeeperGo
  /\ FinalScore (Aggregate obfuscatedHeuristic04) == 0.52.
Proof. repeat split. Qed.

(** ** TIER 1: which signal the sort puts first *)

(** Inserting [x] into a reversed prefix that ends in [top]: either [x]
    passes every element and becomes the new last one, or it stops before
    [top], at an element it is not [less] than. *)
Lemma insertLess_snoc {A : Type} (less : A -> A -> bool) (x top : A)
  (front : list A) :
  (insertLess less x (front ++ [top]) = (front ++ [top]) ++ [x]
   /\ less x top = true)
  \/ (exists front',
         insertLess less x (front ++ [top]) = front' ++ [top]
         /\ (forall y, In y front' -> y = x \/ In y front)
         /\ exists y, In y (front ++ [top]) /\ less x y = false).
Proof.
  induction front as [|y front IH]; cbn [app insertLess].
  - destruct (less x top) eqn:E.
    + left. split; reflexivity.
    + right. exists [x]. split; [reflexivity|]. split.
      * intros z [<-|[]]. left. reflexivity.
      * exists top. split; [left; reflexivity | exact E].
  - destruct (less x y) eqn:E.
    + destruct IH as [[IH1 IH2] | (front' & IH1 & IH2 & z & Hz & Hless)].
      * left. rewrite IH1. split; [reflexivity | exact IH2].
      * right. exists (y :: front'). rewrite IH1. split; [reflexivity|]. split.
        -- intros w [<-|Hw]; [right; left; reflexivity|].
           destruct (IH2 w Hw) as [->|Hin]; [left; reflexivity | right; right; exact Hin].
        -- exists z. split; [right; exact Hz | exact Hless].
    + right. exists (x :: y :: front). split; [reflexivity|]. split.
      * intros w [<-|Hw]; [left; reflexivity | right; exact Hw].
      * exists y. split; [left; reflexivity | exact E].
Qed.

(** After the insertion loop the last element of the reversed prefix (the
    first of the sorted slice) is the earliest signal of maximal
    confidence. *)
Lemma insertion_loop_top (data : list DetectionSignal) :
  data <> [] ->
  exists front top pre post,
    fold_left (fun revPrefix x => insertLess byConfidenceDesc x revPrefix) data []
    = front ++ [top]
    /\ data = pre ++ top :: post
    /\ (forall y, In y pre -> Confidence y < Confidence top)
    /\ (forall y, In y post -> Confidence y <= Confidence top)
    /\ (forall y, In y front -> In y data).
Proof.
  induction data as [|x l IH] using rev_ind; [congruence|]. intros _.
  rewrite fold_left_app. cbn [fold_left].
  destruct l as [|x0 l0].
  - exists [], x, [], []. cbn. repeat split; intros y [].
  - destruct IH as (front & top & pre & post & Hfold & Hdata & Hpre & Hpost & Hfront);
      [discriminate|].
    rewrite Hfold.
    assert (Hall : forall y, In y (front ++ [top]) -> Confidence y <= Confidence top).
    { intros y Hy. apply in_app_or in Hy. destruct Hy as [Hy|[<-|[]]]; [|lra].
      apply Hfront in Hy. rewrite Hdata in Hy. apply in_app_or in Hy.
      destruct Hy as [Hy|[<-|Hy]].
      - apply Qlt_le_weak, Hpre, Hy.
      - lra.
      - apply Hpost, Hy. }
    destruct (insertLess_snoc byConfidenceDesc x top front)
      as [[Hins Hless] | (front' & Hins & Hin' & z & Hz & Hless)].
    + unfold byConfidenceDesc in Hless. apply Qgtb_true in Hless.
      exists (front ++ [top]), x, (x0 :: l0), []. rewrite Hins.
      repeat split.
      * intros y Hy. rewrite Hdata in Hy.
        assert (Confidence y <= Confidence top); [|lra].
        apply in_app_or in Hy. destruct Hy as [Hy|[<-|Hy]].
        -- apply Qlt_le_weak, Hpre, Hy.
        -- lra.
        -- apply Hpost, Hy.
      * intros y [].
      * intros y Hy. apply in_or_app. left. apply in_app_or in Hy.
        destruct Hy as [Hy|[<-|[]]].
        -- apply Hfront, Hy.
        -- rewrite Hdata. apply in_or_app. right. left. reflexivity.
    + unfold byConfidenceDesc in Hless. apply Qgtb_false in Hless.
      pose proof (Hall z Hz) as Hztop.
      exists front', top, pre, (post ++ [x]). rewrite Hins.
      repeat split.
      * rewrite Hdata. rewrite <- app_assoc. reflexivity.
      * exact Hpre.
      * intros y Hy. apply in_app_or in Hy. destruct Hy as [Hy|[<-|[]]].
        -- apply Hpost, Hy.
        -- lra.
      * intros y Hy. apply in_or_app. destruct (Hin' y Hy) as [->|Hy'].
        -- right. left. reflexivity.
        -- left. apply Hfront, Hy'.
Qed.

Lemma sort_Slice_top (data : list DetectionSignal) :
  data <> [] ->
  exists top rest pre post,
    sort_Slice data byConfidenceDesc = top :: rest
    /\ data = pre ++ top :: post
    /\ (forall y, In y pre -> Confidence y < Confidence top)
    /\ (forall y, In y post -> Confidence y <= Confidence top)
    /\ (forall y, In y rest -> In y data).
Proof.
  intros Hne.
  destruct (insertion_loop_top data Hne)
    as (front & top & pre & post & Hfold & Hdata & Hpre & Hpost & Hfront).
  exists top, (List.rev front), pre, post.
  unfold sort_Slice, insertionSort_func. rewrite Hfold, rev_app_distr.
  repeat split; try assumption.
  intros y Hy. apply Hfront. apply in_rev. exact Hy.
Qed.

Lemma IsHighConfidence_iff (s : DetectionSignal) :
  IsHighConfidence s = true <-> 0.85 <= Confidence s.
Proof. unfold IsHighConfidence. apply Qgeb_true. Qed.

(** C5, as the code has it.  In TIER 1 (TIER 0 did not fire), when at
    least one signal has [confidence >= 0.85] and all such signals agree
    on the label, [Aggregate] returns, with decision path
    TIER_1_HIGH_CONFIDENCE_AGREEMENT, the score of a high-confidence signal
    of top confidence; among several signals of equal top confidence it is
    the one that comes first in the aggregator's signal list: every
    high-confidence signal before it has strictly smaller confidence.  The
    source of a signal plays no role.  Stated for at most 12
    high-confidence signals, where Go's [sort.Slice] is the insertion
    sort. *)
Theorem Aggregate_high_confidence_agreement
  (a : SignalAggregator) (s0 : DetectionSignal) :
  aggregateTier0 a = None ->
  In s0 (signals a) ->
  0.85 <= Confidence s0 ->
  (forall s1 s2,
      In s1 (signals a) -> In s2 (signals a) ->
      0.85 <= Confidence s1 -> 0.85 <= Confidence s2 ->
      Label s1 = Label s2) ->
  (List.length (List.filter IsHighConfidence (signals a)) <= 12)%nat ->
  exists pre top post,
    List.filter IsHighConfidence (signals a) = pre ++ top :: post
    /\ (forall y, In y pre -> Confidence y < Confidence top)
    /\ (forall y, In y post -> Confidence y <= Confidence top)
    /\ FinalScore (Aggregate a) = Score top
    /\ DecisionPath (Aggregate a) = "TIER_1_HIGH_CONFIDENCE_AGREEMENT".
Proof.
  intros H0 Hin0 Hc0 Hagree _.
  set (highConf := List.filter IsHighConfidence (signals a)).
  assert (Hne : highConf <> []).
  { intros Hnil.
    assert (Hin : In s0 highConf)
      by (apply filter_In; split; [exact Hin0 | apply IsHighConfidence_iff, Hc0]).
    rewrite Hnil in Hin. contradiction. }
  destruct (sort_Slice_top highConf Hne)
    as (top & rest & pre & post & Hsort & Hdata & Hpre & Hpost & Hrest).
  exists pre, top, post.
  assert (Hmem : forall y, In y highConf ->
                           In y (signals a) /\ 0.85 <= Confidence y).
  { intros y Hy. apply filter_In in Hy. destruct Hy as [Hy1 Hy2].
    split; [exact Hy1 | apply IsHighConfidence_iff, Hy2]. }
  assert (Htop : In top highConf)
    by (rewrite Hdata; apply in_or_app; right; left; reflexivity).
  assert (Hall : forallb (fun s => String.eqb (Label s) (Label top)) (top :: rest) = true).
  { apply forallb_forall. intros y Hy. apply String.eqb_eq.
    assert (Hy' : In y highConf) by (destruct Hy as [<-|Hy]; [exact Htop | apply Hrest, Hy]).
    destruct (Hmem y Hy') as [Hy1 Hy2]. destruct (Hmem top Htop) as [Ht1 Ht2].
    apply Hagree; assumption. }
  unfold Aggregate, aggregateTier1. rewrite H0. fold highConf.
  rewrite Hsort, Hall. cbn.
  repeat split; assumption.
Qed.

(** Heuristic and LLM tie at confidence 0.9 and agree on SAFE. *)
Lemma Aggregate_high_confidence_agreement_witness :
  exists pre top post,
    List.filter IsHighConfidence (signals tiedHeuristicThenLLM)
    = pre ++ top :: post
    /\ (forall y, In y pre -> Confidence y < Confidence top)
    /\ (forall y, In y post -> Confidence y <= Confidence top)
    /\ FinalScore (Aggregate tiedHeuristicThenLLM) = Score top
    /\ DecisionPath (Aggregate tiedHeuristicThenLLM)
       = "TIER_1_HIGH_CONFIDENCE_AGREEMENT".
Proof.
  apply (Aggregate_high_confidence_agreement tiedHeuristicThenLLM
           (plainSignal SignalSourceHeuristic 0.1 0.9 "SAFE" [])).
  - reflexivity.
  - left. reflexivity.
  - vm_compute. discriminate.
  - intros s1 s2 [<-|[<-|[]]] [<-|[<-|[]]] _ _; reflexivity.
  - vm_compute. lia.
Defined.

(** C5, the claim as stated fails: heuristic and LLM are both
    high-confidence at the same top confidence 0.9 and agree on SAFE; LLM is
    the later one in the source order, yet the score returned is the
    heuristic's 0.1 and not the LLM's 0.2.  With the two signals added in
    the other order the LLM's score is returned: the list order decides. *)
Lemma tier1_tie_not_by_source_order :
  signals tiedHeuristicThenLLM
  = [plainSignal SignalSourceHeuristic 0.1 0.9 "SAFE" [];
     plainSignal SignalSourceLLM 0.2 0.9 "SAFE" []]
  /\ aggregateTier0 tiedHeuristicThenLLM = None
  /\ DecisionPath (Aggregate tiedHeuristicThenLLM)
     = "TIER_1_HIGH_CONFIDENCE_AGREEMENT"
  /\ FinalScore (Aggregate tiedHeuristicThenLLM) = 0.1
  /\ ~ FinalScore (Aggregate tiedHeuristicThenLLM) == 0.2
  /\ FinalScore (Aggregate tiedLLMThenHeuristic) = 0.2.
Proof. repeat split. discriminate. Qed.

(** ** The benign-pattern discount *)

Section BenignDiscountFacts.

Variable toLower : string -> string.

(** The discount accumulated by the loop is the sum of the weights of
    the patterns found in the text. *)
Lemma fold_benignStep (textLower : string) (entries : list (string * Q))
  (discount : Q) (matched : list string) :
  fst (fold_left (benignStep toLower textLower) entries (discount, matched))
  == discount + matchedWeightSum toLower textLower entries.
Proof.
  revert discount matched.
  induction entries as [|entry entries IH]; intros discount matched.
  - cbn. ring.
  - cbn [fold_left matchedWeightSum]. unfold benignStep at 2.
    destruct (strings_Contains textLower (toLower (fst entry))).
    + cbn [fst snd]. rewrite IH. ring.
    + apply IH.
Qed.

Lemma floor_at_max (x y : Q) :
  x == y ->
  (if Qltb x MaxBenignDiscount then MaxBenignDiscount else x)
  == (if Qltb y MaxBenignDiscount then MaxBenignDiscount else y).
Proof.
  intros Hxy.
  destruct (Qltb x MaxBenignDiscount) eqn:Ex;
    destruct (Qltb y MaxBenignDiscount) eqn:Ey; qprops; lra.
Qed.

(** C7. For every text and every configuration, the discount returned
    by [ApplyBenignPatternDiscount] is never below -0.65: it is the sum
    of the weights of the matched benign patterns, floored at
    [MaxBenignDiscount = -0.65]; when no benign patterns are configured
    the result is exactly 0 (and no pattern is reported). *)
Theorem ApplyBenignPatternDiscount_floor
  (scorerConfig : option ScorerConfig) (text : string) :
  MaxBenignDiscount == -0.65
  /\ MaxBenignDiscount <= fst (ApplyBenignPatternDiscount toLower scorerConfig text)
  /\ fst (ApplyBenignPatternDiscount toLower scorerConfig text)
     == (if Qltb (matchedWeightSum toLower (toLower text)
                    (map_to_list (GetBenignPatterns scorerConfig)))
                 MaxBenignDiscount
         then MaxBenignDiscount
         else matchedWeightSum toLower (toLower text)
                (map_to_list (GetBenignPatterns scorerConfig)))
  /\ (size (GetBenignPatterns scorerConfig) = 0%nat ->
      ApplyBenignPatternDiscount toLower scorerConfig text = (0, [])).
Proof.
  unfold ApplyBenignPatternDiscount.
  split; [reflexivity|].
  destruct (size (GetBenignPatterns scorerConfig) =? 0)%nat eqn:Hsize.
  - apply Nat.eqb_eq in Hsize. apply map_size_empty_iff in Hsize.
    rewrite Hsize, map_to_list_empty. cbn.
    repeat split; try reflexivity. discriminate.
  - apply Nat.eqb_neq in Hsize. cbn [fst snd]. repeat split.
    + destruct (Qltb _ MaxBenignDiscount) eqn:E; qprops; [lra | exact E].
    + apply floor_at_max. rewrite fold_benignStep. ring.
    + intros Hz. contradiction.
Qed.

End BenignDiscountFacts.

(** Two benign phrases of weight -0.4 each occur in the text: the sum
    -0.8 is floored; without a configuration the discount is 0. *)
Lemma ApplyBenignPatternDiscount_floor_witness :
  fst (ApplyBenignPatternDiscount categoryToLower (Some benignConfig)
         "Unit test DOCUMENTATION")
  == -0.65
  /\ ApplyBenignPatternDiscount categoryToLower None "hello" = (0, []).
Proof.
  split.
  - rewrite (proj1 (proj2 (proj2 (ApplyBenignPatternDiscount_floor
               categoryToLower (Some benignConfig) "Unit test DOCUMENTATION")))).
    vm_compute. reflexivity.
  - apply (proj2 (proj2 (proj2 (ApplyBenignPatternDiscount_floor
               categoryToLower None "hello")))).
    reflexivity.
Defined.

(** ** The category normaliser *)

Lemma In_AllTISCategories_dec (c : TISCategory) :
  existsb (String.eqb c) AllTISCategories = true -> In c AllTISCategories.
Proof.
  intros H. apply existsb_exists in H. destruct H as (x & Hx & Heq).
  apply String.eqb_eq in Heq. subst. exact Hx.
Qed.

(** Every value of the table is one of the 21 categories. *)
Lemma internalCategoryMapping_values (category : string) (tis : TISCategory) :
  internalCategoryMapping !! category = Some tis -> In tis AllTISCategories.
Proof.
  intros Hlook. unfold internalCategoryMapping in Hlook.
  apply elem_of_list_to_map_2 in Hlook. apply list_elem_of_In in Hlook.
  assert (Hall : forallb (fun e => existsb (String.eqb (snd e)) AllTISCategories)
                         internalCategoryEntries = true) by (vm_compute; reflexivity).
  rewrite forallb_forall in Hall.
  apply In_AllTISCategories_dec. apply (Hall (category, tis) Hlook).
Qed.

Lemma keywordFallback_values (category : string)
  (cases : list (list string * TISCategory)) :
  (forall e, In e cases -> In (snd e) AllTISCategories) ->
  In (keywordFallback category cases) AllTISCategories.
Proof.
  induction cases as [|[substrs tis] cases IH]; intros Hall; cbn [keywordFallback].
  - apply In_AllTISCategories_dec. vm_compute. reflexivity.
  - destruct (categoryContainsAny category substrs).
    + apply (Hall (substrs, tis)). left. reflexivity.
    + apply IH. intros e He. apply Hall. right. exact He.
Qed.

Lemma NormalizeCategory_values (category : string) :
  In (NormalizeCategory category) AllTISCategories.
Proof.
  unfold NormalizeCategory.
  destruct (String.eqb category "").
  - apply In_AllTISCategories_dec. vm_compute. reflexivity.
  - destruct (internalCategoryMapping !! category) as [tis|] eqn:Hlook.
    + apply (internalCategoryMapping_values category tis Hlook).
    + apply keywordFallback_values. intros e He.
      assert (Hall : forallb (fun e => existsb (String.eqb (snd e)) AllTISCategories)
                             categoryKeywordCases = true) by (vm_compute; reflexivity).
      rewrite forallb_forall in Hall.
      apply In_AllTISCategories_dec. apply (Hall e He).
Qed.

(** Each of the 21 categories, read as a string, normalises to itself. *)
Lemma NormalizeCategory_fixes (c : TISCategory) :
  In c AllTISCategories -> NormalizeCategory (TISCategory_String c) = c.
Proof.
  intros Hin.
  assert (Hall : forallb (fun c => String.eqb (NormalizeCategory (TISCategory_String c)) c)
                         AllTISCategories = true) by (vm_compute; reflexivity).
  rewrite forallb_forall in Hall. apply String.eqb_eq. apply Hall. exact Hin.
Qed.

(** C8. [NormalizeCategory] is idempotent: for every string [c],
    normalising the string value of [NormalizeCategory c] gives
    [NormalizeCategory c] again. *)
Theorem NormalizeCategory_idempotent (c : string) :
  NormalizeCategory (TISCategory_String (NormalizeCategory c))
  = NormalizeCategory c.
Proof.
  apply NormalizeCategory_fixes. apply NormalizeCategory_values.
Qed.

(** ** The gzip decoder *)

Lemma limitBytes_length (n : nat) (s : string) :
  (String.length (limitBytes n s) <= n)%nat.
Proof.
  revert s. induction n as [|n IH]; intros s.
  - cbn. lia.
  - destruct s as [|c rest]; cbn [limitBytes String.length]; [lia|].
    specialize (IH rest). lia.
Qed.

Lemma limitBytes_cap (cap : N) (s : string) :
  (N.of_nat (String.length (limitBytes (N.to_nat cap) s)) <= cap)%N.
Proof.
  pose proof (limitBytes_length (N.to_nat cap) s) as H. lia.
Qed.

(** C9. For every input string, whatever the compressed payload would
    expand to, [TryGzipDecompress] returns at most 1 MiB
    (1024 * 1024 bytes). *)
Theorem TryGzipDecompress_at_most_1MiB
  (findGzipCandidate base64Decode gunzip : string -> option string)
  (input : string) :
  (N.of_nat (String.length
               (TryGzipDecompress findGzipCandidate base64Decode gunzip input))
   <= 1024 * 1024)%N.
Proof.
  unfold TryGzipDecompress.
  destruct (findGzipCandidate input) as [encoded|]; [|cbn; lia].
  destruct (base64Decode encoded) as [compressed|]; [|cbn; lia].
  destruct (gunzip compressed) as [output|]; [|cbn; lia].
  apply (limitBytes_cap MaxGzipOutput output).
Qed.
